(** * MyST-Parser: the HTML renderer ([myst_parser/html_renderer.py])

    A shallow embedding of [HTMLRenderer] and of the module-level helpers
    [pygments_highlight], [minimal_html_page], [get_pygments_css] and
    [get_syntax_css], followed by the properties of the rendering rules.

    What the module imports from elsewhere is kept abstract:
    - the methods inherited from [mistletoe.html_renderer.HTMLRenderer]
      ([render_document], [render_block_code], [render_raw_text],
      [escape_html]) are the fields of [Inherited];
    - the pygments functions are the fields of [Pygments];
    - the packaged stylesheet [myst_standalone.css] is a section variable. *)

From Stdlib Require Import String Ascii List Bool Arith Lia.
Import ListNotations.
Open Scope string_scope.

(** ** Python strings

    A Python [str] is modelled by [string]; every character is read as a
    code point below 256. *)

Module PyStr.

(** The characters that cannot be written inside a literal here. *)
Definition dq : string := String "034"%char EmptyString.
Definition nl : string := String "010"%char EmptyString.

(** [q s] is [s] between double quotes, as in [class="s"]. *)
Definition q (s : string) : string := dq ++ s ++ dq.

(** Truth value of a [str]: false exactly for the empty string. *)
Definition truthy (s : string) : bool :=
  match s with
  | EmptyString => false
  | String _ _ => true
  end.

(** [s.startswith(p)]. *)
Fixpoint startswith (s p : string) {struct p} : bool :=
  match p with
  | EmptyString => true
  | String a p' =>
      match s with
      | EmptyString => false
      | String b s' => Ascii.eqb a b && startswith s' p'
      end
  end.

(** [c.isspace()] for a code point below 256: TAB..CR, FS..US, space,
    NEL and the no-break space. *)
Definition isspace (c : ascii) : bool :=
  let n := nat_of_ascii c in
  (Nat.leb 9 n && Nat.leb n 13) || (Nat.leb 28 n && Nat.leb n 32)
  || Nat.eqb n 133 || Nat.eqb n 160.

(** [s.rstrip()]: drop the trailing run of whitespace. *)
Fixpoint rstrip (s : string) : string :=
  match s with
  | EmptyString => EmptyString
  | String c r =>
      match rstrip r with
      | EmptyString => if isspace c then EmptyString else String c EmptyString
      | String d r' => String c (String d r')
      end
  end.

(** [sep.join(parts)]. *)
Fixpoint join (sep : string) (parts : list string) : string :=
  match parts with
  | [] => EmptyString
  | [x] => x
  | x :: rest => x ++ sep ++ join sep rest
  end.

(** [p in s]. *)
Fixpoint is_in (p s : string) : bool :=
  startswith s p ||
  match s with
  | EmptyString => false
  | String _ s' => is_in p s'
  end.

(** Number of positions of [s] at which [p] starts. *)
Fixpoint occurrences (p s : string) : nat :=
  (if startswith s p then 1 else 0) +
  match s with
  | EmptyString => 0
  | String _ s' => occurrences p s'
  end.

(** [c] is one of the characters of [s]. *)
Fixpoint has_char (c : ascii) (s : string) : bool :=
  match s with
  | EmptyString => false
  | String a s' => Ascii.eqb c a || has_char c s'
  end.

End PyStr.
Import PyStr.

(** ** Exceptions and results *)

Inductive exn : Type :=
| IndexError
| AttributeError
| ClassNotFound
| OtherError (what : string).

Inductive result (A : Type) : Type :=
| Ok (a : A)
| Raise (e : exn).
Arguments Ok {A} a.
Arguments Raise {A} e.

Definition bind {A B : Type} (m : result A) (k : A -> result B) : result B :=
  match m with
  | Ok a => k a
  | Raise e => Raise e
  end.

Notation "x <- m ;; k" := (bind m (fun x => k))
  (at level 61, m at next level, right associativity).

(** ** Tokens

    A token is the record of the attributes the rules read.  A rule reads
    only the attributes of its own token class; the others are unused. *)

#[local] Set Warnings "-register-all".

Inductive token : Type := Token {
  language : string;
  arguments : string;
  content : string;
  raw : string;
  target : string;
  name : string;
  children : list token
}.

(** [xs[0]]: [IndexError] on the empty list. *)
Definition item0 {A : Type} (xs : list A) : result A :=
  match xs with
  | [] => Raise IndexError
  | x :: _ => Ok x
  end.

(** ** The renderer object

    The seven keyword arguments of [__init__], and the two attributes the
    constructor adds besides them. *)

Record HTMLRenderer : Type := {
  show_comments : bool;
  show_front_matter : bool;
  myst_css : option string;
  use_pygments : bool;
  pygments_css : option string;
  add_mathjax : bool;
  as_standalone : bool;
  _suppress_ptag_stack : list bool;
  _stdlib_charref : string
}.

(** ** What the module imports *)

(** The methods of [mistletoe.html_renderer.HTMLRenderer] the subclass
    calls, bound to one renderer.  The inherited [render_document] renders
    the children of the document through the rules of that renderer, so a
    value of this type belongs to one configuration and one highlighter:
    a statement that keeps it keeps the show flags, [use_pygments] and
    the lexers and highlighting of the [Pygments] value as well. *)
Record Inherited : Type := {
  super_render_document : token -> result string;
  super_render_block_code : token -> result string;
  render_raw_text : token -> string;
  escape_html : string -> string
}.

(** [pygments]: [get_lexer_by_name] raises [ClassNotFound] for a language
    it has no lexer for; [highlight] is taken with [HtmlFormatter()];
    [get_style_defs] is [HtmlFormatter().get_style_defs]. *)
Record Pygments : Type := {
  lexer : Type;
  get_lexer_by_name : string -> result lexer;
  highlight : string -> lexer -> result string;
  get_style_defs : string -> string
}.

(** ** Module-level helpers *)

(** [pygments_highlight(code, language)]: the highlighted text, [None]
    when [ClassNotFound] is raised inside the [try]; any other exception
    passes through. *)
Definition pygments_highlight (pyg : Pygments) (code language : string)
  : result (option string) :=
  match (lx <- get_lexer_by_name pyg language ;; highlight pyg code lx) with
  | Ok html => Ok (Some html)
  | Raise ClassNotFound => Ok None
  | Raise e => Raise e
  end.

(** [get_pygments_css()]. *)
Definition get_pygments_css (pyg : Pygments) : string :=
  get_style_defs pyg ".highlight".

(** [minimal_html_page(body, css, title, lang)].  [dedent] acts on the
    template before [format] fills it: it removes the four-space margin of
    every line and the whitespace-only last line, and leaves the text put
    in for the fields as it is. *)
Definition minimal_html_page (body css title lang : string) : string :=
  "<!DOCTYPE html>" ++ nl ++
  "<html lang=" ++ q lang ++ ">" ++ nl ++
  nl ++
  "<head>" ++ nl ++
  "<meta charset=" ++ q "utf-8" ++ ">" ++ nl ++
  "<title>" ++ title ++ "</title>" ++ nl ++
  "<style>" ++ nl ++
  css ++ nl ++
  "</style>" ++ nl ++
  "</head>" ++ nl ++
  "<body>" ++ nl ++
  body ++ nl ++
  "</body>" ++ nl ++
  "</html>" ++ nl.

(** The default values of [title] and [lang]. *)
Definition default_title : string := "Standalone HTML".
Definition default_lang : string := "en".

(** The [script] element [render_document] appends for MathJax. *)
Definition mathjax_script : string :=
  "<script src=" ++
  q "https://cdnjs.cloudflare.com/ajax/libs/mathjax/2.7.0/MathJax.js?config=TeX-MML-AM_CHTML"
  ++ "></script>" ++ nl.

(** The text put in for the field [t] of the directive and role shells. *)
Definition tick : string := "&#39;".

(** ** The rendering rules of [HTMLRenderer] *)

Section Rules.

Variable inh : Inherited.
Variable pyg : Pygments.
(** The text of [myst_standalone.css], which [get_syntax_css] loads. *)
Variable myst_standalone_css : string.
Variable self : HTMLRenderer.

Definition get_syntax_css : string := myst_standalone_css.

(** The style sheet [render_document] hands to [minimal_html_page]. *)
Definition resolved_css : string :=
  let css :=
    match myst_css self with
    | None => get_syntax_css
    | Some c => c
    end in
  if use_pygments self then
    css ++ match pygments_css self with
           | None => get_pygments_css pyg
           | Some c => c
           end
  else css.

Definition render_document (token : token) : result string :=
  body <- super_render_document inh token ;;
  let body := if add_mathjax self then body ++ mathjax_script else body in
  if negb (as_standalone self) then Ok body
  else Ok (minimal_html_page body resolved_css default_title default_lang).

(** The [div] around a highlighted code block. *)
Definition highlight_div (language highlighted : string) : string :=
  join nl [ "<div class=" ++ q ("highlight-" ++ language) ++ ">";
            rstrip highlighted;
            "</div>" ].

Definition render_block_code (token : token) : result string :=
  if negb (truthy (language token)) || negb (use_pygments self) then
    super_render_block_code inh token
  else
    child <- item0 (children token) ;;
    highlighted <- pygments_highlight pyg (content child) (language token) ;;
    match highlighted with
    | None => super_render_block_code inh token
    | Some h => Ok (highlight_div (language token) h)
    end.

(** The directive shell, with its three fields filled in. *)
Definition directive_shell (name args content : string) : string :=
  "<div class=" ++ q "myst-directive" ++ ">" ++
  tick ++ tick ++ tick ++
  "<span class=" ++ q "myst-dir-name" ++ ">" ++ name ++ "</span>&nbsp" ++ nl ++
  "<span class=" ++ q "myst-dir-args" ++ ">" ++ args ++ "</span>" ++ nl ++
  "<span class=" ++ q "myst-dir-content" ++ "><pre><code>" ++ content
    ++ "</code></pre></span>" ++ nl ++
  tick ++ tick ++ tick ++
  "</div>".

Definition render_directive (token : token) : result string :=
  child <- item0 (children token) ;;
  Ok (directive_shell (language token) (arguments token) (content child)).

Definition render_code_fence (token : token) : result string :=
  if truthy (language token) && startswith (language token) "{" then
    render_directive token
  else render_block_code token.

(** The two shells of the front matter. *)
Definition front_matter_highlighted (highlighted : string) : string :=
  "<div class=" ++ q "highlight-yaml myst-front-matter" ++ ">" ++ nl ++
  rstrip highlighted ++ nl ++ "</div>".

Definition front_matter_plain (escaped : string) : string :=
  "<div class=" ++ q "myst-front-matter" ++ ">" ++
  "<pre><code class=" ++ q "language-yaml" ++ ">" ++ escaped ++ "</code></pre>" ++
  "</div>".

(** [highlighted.rstrip()] on [None] raises [AttributeError]. *)
Definition render_front_matter (token : token) : result string :=
  if negb (show_front_matter self) then Ok EmptyString
  else if use_pygments self then
    highlighted <- pygments_highlight pyg (content token) "yaml" ;;
    match highlighted with
    | None => Raise AttributeError
    | Some h => Ok (front_matter_highlighted h)
    end
  else Ok (front_matter_plain (escape_html inh (content token))).




Definition render_role (token : token) : result string :=
  child <- item0 (children token) ;;
  Ok ("<span class=" ++ q "myst-role" ++ ">" ++
      "<span class=" ++ q "myst-role-name" ++ ">{" ++ name token ++ "}</span>" ++
      "<span class=" ++ q "myst-role-content" ++ ">" ++ tick
        ++ render_raw_text inh child ++ tick ++ "</span>" ++
      "</span>").

Definition render_math (token : token) : result string :=
  if startswith (content token) "$$" then Ok (render_raw_text inh token)
  else Ok ("$" ++ render_raw_text inh token ++ "$").

End Rules.

(** ** Construction

    [__init__] stores its arguments, and writes three attributes of other
    modules: [span_token._token_types.value],
    [block_token._token_types.value] and [html._charref]. *)


(** The pattern [__init__] compiles: every alternative ends in [;]. *)
Definition _charref : string :=
  "&(#[0-9]+;" ++ "|#[xX][0-9a-fA-F]+;" ++ "|[^\t\n\f <&#;]{1,32};)".

Section Construction.

(** The token classes [_tokens_from_module] finds in
    [myst_parser.span_tokens] and [myst_parser.block_tokens]. *)
Variable myst_span_tokens : list string.
Variable myst_block_tokens : list string.


End Construction.

(** The renderer with [as_standalone] replaced. *)
Definition with_standalone (b : bool) (self : HTMLRenderer) : HTMLRenderer :=
  {| show_comments := show_comments self;
     show_front_matter := show_front_matter self;
     myst_css := myst_css self;
     use_pygments := use_pygments self;
     pygments_css := pygments_css self;
     add_mathjax := add_mathjax self;
     as_standalone := b;
     _suppress_ptag_stack := _suppress_ptag_stack self;
     _stdlib_charref := _stdlib_charref self |}.

(** The token with [content] replaced. *)
Definition with_content (s : string) (t : token) : token :=
  {| language := language t; arguments := arguments t; content := s;
     raw := raw t; target := target t; name := name t;
     children := children t |}.

(** The token with [children] replaced. *)
Definition with_children (cs : list token) (t : token) : token :=
  {| language := language t; arguments := arguments t; content := content t;
     raw := raw t; target := target t; name := name t;
     children := cs |}.

(** ** The templates by parts *)

(** The parts of the directive shell before and after each field. *)
Definition shell_to_name : string :=
  "<div class=" ++ q "myst-directive" ++ ">" ++ tick ++ tick ++ tick ++
  "<span class=" ++ q "myst-dir-name" ++ ">".
Definition shell_name_to_args : string :=
  "</span>&nbsp" ++ nl ++ "<span class=" ++ q "myst-dir-args" ++ ">".
Definition shell_args_to_content : string :=
  "</span>" ++ nl ++ "<span class=" ++ q "myst-dir-content" ++ ">".
Definition shell_end : string :=
  "</span>" ++ nl ++ tick ++ tick ++ tick ++ "</div>".

(** The parts of the page before, between and after its two fields. *)
Definition page_head : string :=
  "<!DOCTYPE html>" ++ nl ++ "<html lang=" ++ q "en" ++ ">" ++ nl ++ nl ++
  "<head>" ++ nl ++ "<meta charset=" ++ q "utf-8" ++ ">" ++ nl ++
  "<title>Standalone HTML</title>" ++ nl ++ "<style>".
Definition page_mid : string :=
  "</style>" ++ nl ++ "</head>" ++ nl ++ "<body>".
Definition page_tail : string :=
  "</body>" ++ nl ++ "</html>" ++ nl.

(** ** An instance of the imports

    A small renderer base and two highlighters, used to run the rules on
    concrete tokens.  [escape_html] follows mistletoe's
    [html.escape(html.unescape(raw))], with [unescape] cut down to the
    five references [escape] itself produces. *)

Module Sample.

Definition entity (c : ascii) : string :=
  if Ascii.eqb c "&" then "&amp;"
  else if Ascii.eqb c "<" then "&lt;"
  else if Ascii.eqb c ">" then "&gt;"
  else if Ascii.eqb c "034" then "&quot;"
  else if Ascii.eqb c "'" then "&#x27;"
  else String c EmptyString.

Fixpoint escape (s : string) : string :=
  match s with
  | EmptyString => EmptyString
  | String c r => entity c ++ escape r
  end.

Definition references : list (string * ascii) :=
  [ ("&amp;", "&"%char); ("&lt;", "<"%char); ("&gt;", ">"%char);
    ("&quot;", "034"%char); ("&#x27;", "'"%char) ].

(** The reference [s] starts with, as the character it stands for and
    the number of characters that follow its [&]. *)
Fixpoint reference_at (refs : list (string * ascii)) (s : string)
  : option (ascii * nat) :=
  match refs with
  | [] => None
  | (r, c) :: refs' =>
      if startswith s r then Some (c, Nat.pred (String.length r))
      else reference_at refs' s
  end.

(** [unescape_from skip s]: [s] with its references replaced, the first
    [skip] characters dropped. *)
Fixpoint unescape_from (skip : nat) (s : string) : string :=
  match s with
  | EmptyString => EmptyString
  | String c r =>
      match skip with
      | S k => unescape_from k r
      | O =>
          match reference_at references s with
          | Some (d, k) => String d (unescape_from k r)
          | None => String c (unescape_from 0 r)
          end
      end
  end.

Definition unescape (s : string) : string := unescape_from 0 s.

Definition sample_escape_html (s : string) : string := escape (unescape s).

Definition sample_block_code (t : token) : result string :=
  let attr :=
    if truthy (language t)
    then " class=" ++ q ("language-" ++ sample_escape_html (language t))
    else EmptyString in
  child <- item0 (children t) ;;
  Ok ("<pre><code" ++ attr ++ ">" ++ escape (content child) ++ "</code></pre>").

Definition sample_document (t : token) : result string :=
  Ok (String.concat EmptyString
        (map (fun c => "<p>" ++ sample_escape_html (content c) ++ "</p>" ++ nl)
             (children t))).

Definition mistletoe : Inherited :=
  {| super_render_document := sample_document;
     super_render_block_code := sample_block_code;
     render_raw_text := fun t => sample_escape_html (content t);
     escape_html := sample_escape_html |}.

(** A highlighter that knows [python] and [yaml]. *)
Definition two_lexers : Pygments :=
  {| lexer := string;
     get_lexer_by_name := fun l =>
       if String.eqb l "python" || String.eqb l "yaml" then Ok l
       else Raise ClassNotFound;
     highlight := fun code l =>
       Ok ("<div class=" ++ q "highlight" ++ "><pre>" ++ escape code
           ++ "</pre></div>" ++ nl);
     get_style_defs := fun sel => sel ++ " { background: #f8f8f8; }" |}.

(** A highlighter that finds no lexer at all. *)
Definition no_lexers : Pygments :=
  {| lexer := string;
     get_lexer_by_name := fun _ => Raise ClassNotFound;
     highlight := fun code _ => Ok code;
     get_style_defs := fun _ => EmptyString |}.

(** The same base with [escape_html] that decodes nothing. *)
Definition lenient : Inherited :=
  {| super_render_document := sample_document;
     super_render_block_code := sample_block_code;
     render_raw_text := fun t => escape (content t);
     escape_html := escape |}.

Definition css : string := "body { margin: 2em; }".

(** [HTMLRenderer()], every argument at its default. *)
Definition default_renderer : HTMLRenderer :=
  {| show_comments := false; show_front_matter := true; myst_css := None;
     use_pygments := false; pygments_css := None; add_mathjax := false;
     as_standalone := false; _suppress_ptag_stack := [false];
     _stdlib_charref := "&(#[0-9]+;?|#[xX][0-9a-fA-F]+;?|[^\t\n\f <&#;]{1,32};?)" |}.

(** [HTMLRenderer(use_pygments=True)]. *)
Definition pygments_renderer : HTMLRenderer :=
  {| show_comments := false; show_front_matter := true; myst_css := None;
     use_pygments := true; pygments_css := None; add_mathjax := false;
     as_standalone := false; _suppress_ptag_stack := [false];
     _stdlib_charref := _charref |}.

(** [HTMLRenderer(as_standalone=True, myst_css=...)], the style sheet
    closing the style element of the page and opening one more. *)
Definition split_css_renderer : HTMLRenderer :=
  {| show_comments := false; show_front_matter := true;
     myst_css := Some "p { margin: 0 }</style><style>em { color: red }";
     use_pygments := false; pygments_css := None; add_mathjax := false;
     as_standalone := true; _suppress_ptag_stack := [false];
     _stdlib_charref := _charref |}.

(** A token with no child, whose text attributes all hold [s]. *)
Definition text (s : string) : token :=
  {| language := EmptyString; arguments := EmptyString; content := s;
     raw := s; target := s; name := EmptyString; children := [] |}.

Definition fence (lang args body : string) : token :=
  {| language := lang; arguments := args; content := EmptyString;
     raw := EmptyString; target := EmptyString; name := EmptyString;
     children := [text body] |}.

(** A fence token with no child at all. *)
Definition childless (lang : string) : token :=
  {| language := lang; arguments := EmptyString; content := EmptyString;
     raw := EmptyString; target := EmptyString; name := EmptyString;
     children := [] |}.

End Sample.

(** ** Further helpers

    Replacing single attributes of a renderer or a highlighter, reading
    text without regard to letter case, and two more highlighters. *)

(** Every character of [s] is whitespace for [rstrip]. *)
Fixpoint all_space (s : string) : bool :=
  match s with
  | EmptyString => true
  | String c r => isspace c && all_space r
  end.

(** The renderer with [add_mathjax] replaced. *)
Definition with_mathjax (b : bool) (self : HTMLRenderer) : HTMLRenderer :=
  {| show_comments := show_comments self;
     show_front_matter := show_front_matter self;
     myst_css := myst_css self;
     use_pygments := use_pygments self;
     pygments_css := pygments_css self;
     add_mathjax := b;
     as_standalone := as_standalone self;
     _suppress_ptag_stack := _suppress_ptag_stack self;
     _stdlib_charref := _stdlib_charref self |}.

(** The renderer with [myst_css] and [pygments_css] replaced. *)
Definition with_css (m g : option string) (self : HTMLRenderer)
  : HTMLRenderer :=
  {| show_comments := show_comments self;
     show_front_matter := show_front_matter self;
     myst_css := m;
     use_pygments := use_pygments self;
     pygments_css := g;
     add_mathjax := add_mathjax self;
     as_standalone := as_standalone self;
     _suppress_ptag_stack := _suppress_ptag_stack self;
     _stdlib_charref := _stdlib_charref self |}.

(** The highlighter with [get_style_defs] replaced, lexers and
    highlighting as they are. *)
Definition with_style_defs (f : string -> string) (pyg : Pygments) : Pygments :=
  {| lexer := lexer pyg;
     get_lexer_by_name := get_lexer_by_name pyg;
     highlight := highlight pyg;
     get_style_defs := f |}.

(** The five characters [html.escape] replaces. *)
Definition html_special (c : ascii) : bool :=
  Ascii.eqb c "&" || Ascii.eqb c "<" || Ascii.eqb c ">"
  || Ascii.eqb c "034" || Ascii.eqb c "'".

(** [s] holds none of them. *)
Fixpoint plain_text (s : string) : bool :=
  match s with
  | EmptyString => true
  | String c r => negb (html_special c) && plain_text r
  end.

(** [s] with the letters A to Z in lower case: tag names in HTML are
    read without regard to case. *)
Definition lower_char (c : ascii) : ascii :=
  let n := nat_of_ascii c in
  if Nat.leb 65 n && Nat.leb n 90 then ascii_of_nat (n + 32) else c.

Fixpoint lower (s : string) : string :=
  match s with
  | EmptyString => EmptyString
  | String c r => String (lower_char c) (lower r)
  end.

(** A role token [{ref}] with two children. *)
Definition sample_role : token :=
  {| language := EmptyString; arguments := EmptyString;
     content := EmptyString; raw := EmptyString; target := EmptyString;
     name := "ref";
     children := [Sample.text "a<b"; Sample.text "more"] |}.

(** A highlighter whose lexer lookup fails with an error of its own. *)
Definition failing_lexers : Pygments :=
  {| lexer := string;
     get_lexer_by_name := fun _ => Raise (OtherError "OptionError");
     highlight := fun code _ => Ok code;
     get_style_defs := fun _ => EmptyString |}.

(** A highlighter that finds every lexer and fails while highlighting. *)
Definition failing_highlight : Pygments :=
  {| lexer := string;
     get_lexer_by_name := fun l => Ok l;
     highlight := fun _ _ => Raise (OtherError "UnicodeDecodeError");
     get_style_defs := fun _ => EmptyString |}.

(** [Sample.two_lexers], its output ending in a newline and spaces more. *)
Definition padded_lexers : Pygments :=
  {| lexer := string;
     get_lexer_by_name := get_lexer_by_name Sample.two_lexers;
     highlight := fun code l =>
       html <- highlight Sample.two_lexers code l ;; Ok (html ++ nl ++ "  ");
     get_style_defs := get_style_defs Sample.two_lexers |}.

(** * Properties *)

(** ** Strings *)

Section StringFacts.

Lemma append_assoc (a b c : string) : (a ++ b) ++ c = a ++ b ++ c.
Proof.
  induction a as [|x a IH]; simpl; [reflexivity|].
  now rewrite IH.
Qed.

Lemma startswith_append (p s : string) : startswith (p ++ s) p = true.
Proof.
  induction p as [|x p IH]; simpl; [reflexivity|].
  now rewrite Ascii.eqb_refl, IH.
Qed.

Lemma is_in_here (p b : string) : is_in p (p ++ b) = true.
Proof.
  destruct p as [|x p]; simpl.
  - destruct b; reflexivity.
  - now rewrite Ascii.eqb_refl, startswith_append.
Qed.

Lemma is_in_later (p : string) (c : ascii) (s : string) :
  is_in p s = true -> is_in p (String c s) = true.
Proof.
  intros H. cbn [is_in]. rewrite H. apply orb_true_r.
Qed.

Lemma is_in_skip (p a s : string) :
  is_in p s = true -> is_in p (a ++ s) = true.
Proof.
  intros H. induction a as [|x a IH]; [exact H|].
  exact (is_in_later p x _ IH).
Qed.

Lemma is_in_between (a p b : string) : is_in p (a ++ p ++ b) = true.
Proof. apply is_in_skip, is_in_here. Qed.

(** A pattern that lacks the character [c] cannot start inside [a] and
    run over a [c] that follows [a]. *)
Lemma startswith_stops (p : string) (c : ascii) :
  has_char c p = false ->
  forall a b, startswith (a ++ String c b) p = startswith a p.
Proof.
  induction p as [|x p IH]; intros Hc a b; [now destruct a|].
  cbn [has_char] in Hc. apply orb_false_elim in Hc as [Hx Hp].
  destruct a as [|y a]; cbn [append startswith].
  - rewrite Ascii.eqb_sym, Hx. reflexivity.
  - now rewrite (IH Hp).
Qed.

Lemma occurrences_split (p : string) (c : ascii) (a b : string) :
  has_char c p = false ->
  occurrences p (a ++ String c b) = occurrences p a + occurrences p b.
Proof.
  intros Hc. induction a as [|y a IH].
  - change (EmptyString ++ String c b) with (String c b).
    cbn [occurrences].
    rewrite <- (startswith_stops p c Hc EmptyString b).
    cbn [append]. lia.
  - change (String y a ++ String c b) with (String y (a ++ String c b)).
    cbn [occurrences]. rewrite IH.
    change (String y (a ++ String c b)) with (String y a ++ String c b).
    rewrite (startswith_stops p c Hc). lia.
Qed.

End StringFacts.

(** ** The code fence: directive or code block *)

Lemma code_fence_brace (inh : Inherited) (pyg : Pygments) (self : HTMLRenderer)
    (tok : token) (rest : string) :
  language tok = String "{" rest ->
  render_code_fence inh pyg self tok = render_directive tok.
Proof.
  intros H. unfold render_code_fence. now rewrite H.
Qed.

Lemma code_fence_other (inh : Inherited) (pyg : Pygments) (self : HTMLRenderer)
    (tok : token) :
  startswith (language tok) "{" = false ->
  render_code_fence inh pyg self tok = render_block_code inh pyg self tok.
Proof.
  intros H. unfold render_code_fence. rewrite H.
  now rewrite andb_false_r.
Qed.

(** C1.  A fence token whose language tag starts with an opening brace is
    rendered by the directive rule; a token whose tag is empty, or starts
    with any other character, is rendered by the block-code rule.  The
    choice is a function of the tag alone: two tokens with the same tag
    take the same rule, whatever their content and children. *)
Theorem C1_code_fence_dispatch :
  forall (inh : Inherited) (pyg : Pygments) (self : HTMLRenderer),
    (forall tok rest,
        language tok = String "{" rest ->
        render_code_fence inh pyg self tok = render_directive tok) /\
    (forall tok,
        language tok = EmptyString ->
        render_code_fence inh pyg self tok = render_block_code inh pyg self tok) /\
    (forall tok c rest,
        language tok = String c rest -> c <> "{"%char ->
        render_code_fence inh pyg self tok = render_block_code inh pyg self tok) /\
    (forall tok tok',
        language tok = language tok' ->
        (render_code_fence inh pyg self tok = render_directive tok /\
         render_code_fence inh pyg self tok' = render_directive tok') \/
        (render_code_fence inh pyg self tok = render_block_code inh pyg self tok /\
         render_code_fence inh pyg self tok'
           = render_block_code inh pyg self tok')).
Proof.
  intros inh pyg self. repeat split.
  - intros tok rest H. exact (code_fence_brace inh pyg self tok rest H).
  - intros tok H. apply code_fence_other. now rewrite H.
  - intros tok c rest H Hc. apply code_fence_other. rewrite H.
    cbn [startswith].
    destruct (Ascii.eqb_spec "{" c) as [E|_]; [now elim Hc|reflexivity].
  - intros tok tok' H.
    destruct (startswith (language tok) "{") eqn:E.
    + left. destruct (language tok) as [|c rest] eqn:L; [discriminate E|].
      cbn [startswith] in E. apply andb_prop in E as [E _].
      apply Ascii.eqb_eq in E. subst c.
      split; [exact (code_fence_brace inh pyg self tok rest L)|].
      exact (code_fence_brace inh pyg self tok' rest (eq_sym H)).
    + right. split; apply code_fence_other; [exact E|now rewrite <- H].
Qed.

Lemma directive_shell_parts (n a c : string) :
  directive_shell n a c =
  shell_to_name ++ n ++ shell_name_to_args ++ a ++ shell_args_to_content
  ++ ("<pre><code>" ++ c ++ "</code></pre>") ++ shell_end.
Proof.
  unfold directive_shell, shell_to_name, shell_name_to_args,
    shell_args_to_content, shell_end.
  rewrite !append_assoc. reflexivity.
Qed.

Lemma directive_shell_holds (n a c : string) :
  is_in n (directive_shell n a c) = true /\
  is_in a (directive_shell n a c) = true /\
  is_in ("<pre><code>" ++ c ++ "</code></pre>") (directive_shell n a c) = true.
Proof.
  rewrite directive_shell_parts. repeat split.
  - apply is_in_between.
  - do 3 apply is_in_skip. apply is_in_here.
  - do 5 apply is_in_skip. apply is_in_here.
Qed.

Lemma C1_code_fence_dispatch_witness :
  render_code_fence Sample.mistletoe Sample.two_lexers Sample.default_renderer
    (Sample.fence "{name}" "arg" "foo")
  = render_directive (Sample.fence "{name}" "arg" "foo") /\
  render_code_fence Sample.mistletoe Sample.two_lexers Sample.default_renderer
    (Sample.fence "python" "" "foo")
  = render_block_code Sample.mistletoe Sample.two_lexers
      Sample.default_renderer (Sample.fence "python" "" "foo") /\
  render_code_fence Sample.mistletoe Sample.two_lexers Sample.default_renderer
    (Sample.fence "" "" "{foo}")
  = render_block_code Sample.mistletoe Sample.two_lexers
      Sample.default_renderer (Sample.fence "" "" "{foo}").
Proof.
  destruct (C1_code_fence_dispatch Sample.mistletoe Sample.two_lexers
              Sample.default_renderer) as (Hd & He & Hc & _).
  split; [|split].
  - exact (Hd (Sample.fence "{name}" "arg" "foo") "name}" eq_refl).
  - refine (Hc (Sample.fence "python" "" "foo") "p"%char "ython" eq_refl _).
    discriminate.
  - exact (He (Sample.fence "" "" "{foo}") eq_refl).
Defined.

(** C2.  A fence token classified as a directive, with a first child,
    renders as the directive shell filled with the token's language tag,
    its argument string and the first child's content, each as it stands:
    the shell holds the tag (so the name between its braces), the
    arguments, and the content between [<pre><code>] and [</code></pre>],
    and no escaping function takes part. *)
Theorem C2_directive_shell :
  forall (inh : Inherited) (pyg : Pygments) (self : HTMLRenderer)
         (tok : token) (rest : string) (c : token) (others : list token),
    language tok = String "{" rest ->
    children tok = c :: others ->
    let shell := directive_shell (language tok) (arguments tok) (content c) in
    render_code_fence inh pyg self tok = Ok shell /\
    is_in (language tok) shell = true /\
    is_in (arguments tok) shell = true /\
    is_in ("<pre><code>" ++ content c ++ "</code></pre>") shell = true /\
    (forall n, language tok = "{" ++ n ++ "}" -> is_in n shell = true).
Proof.
  intros inh pyg self tok rest c others L C shell.
  destruct (directive_shell_holds (language tok) (arguments tok) (content c))
    as (Hn & Ha & Hc).
  split; [|repeat split; try assumption].
  - rewrite (code_fence_brace inh pyg self tok rest L).
    unfold render_directive. rewrite C. reflexivity.
  - intros n Hn'. unfold shell. rewrite directive_shell_parts, Hn'.
    rewrite !append_assoc.
    do 2 apply is_in_skip. apply is_in_here.
Qed.

Lemma C2_directive_shell_witness :
  exists shell,
    render_code_fence Sample.mistletoe Sample.two_lexers Sample.default_renderer
      (Sample.fence "{name}" "arg" "a<b") = Ok shell /\
    is_in "name" shell = true /\
    is_in "arg" shell = true /\
    is_in "<pre><code>a<b</code></pre>" shell = true.
Proof.
  destruct (C2_directive_shell Sample.mistletoe Sample.two_lexers
              Sample.default_renderer (Sample.fence "{name}" "arg" "a<b")
              "name}" (Sample.text "a<b") [] eq_refl eq_refl)
    as (H1 & _ & H3 & H4 & H5).
  eexists. split; [exact H1|].
  split; [exact (H5 "name" eq_refl)|].
  split; [exact H3|exact H4].
Defined.

(** ** The standalone page *)

Lemma minimal_html_page_parts (body css : string) :
  minimal_html_page body css default_title default_lang =
  page_head ++ nl ++ css ++ nl ++ page_mid ++ nl ++ body ++ nl ++ page_tail.
Proof. reflexivity. Qed.

Lemma lower_append (a b : string) : lower (a ++ b) = lower a ++ lower b.
Proof.
  induction a as [|c a IH]; [reflexivity|].
  cbn [append lower]. now rewrite IH.
Qed.

(** A pattern with no newline in it is found in the page, read in lower
    case, as often as in the five parts the newlines around the two
    fields separate. *)
Lemma occurrences_lower_page (p body css : string) :
  has_char "010" p = false ->
  occurrences p (lower (minimal_html_page body css default_title default_lang))
  = occurrences p (lower page_head) + occurrences p (lower css)
    + occurrences p (lower page_mid) + occurrences p (lower body)
    + occurrences p (lower page_tail).
Proof.
  intros Hp. rewrite minimal_html_page_parts.
  rewrite !lower_append.
  change (lower nl) with (String "010" EmptyString).
  change (lower page_head ++ String "010" EmptyString ++ lower css
          ++ String "010" EmptyString ++ lower page_mid
          ++ String "010" EmptyString ++ lower body
          ++ String "010" EmptyString ++ lower page_tail)
    with (lower page_head ++ String "010"
            (lower css ++ String "010"
               (lower page_mid ++ String "010"
                  (lower body ++ String "010" (lower page_tail))))).
  rewrite !(occurrences_split p "010") by exact Hp.
  lia.
Qed.

Lemma resolved_css_standalone (pyg : Pygments) (css : string) (b : bool)
    (self : HTMLRenderer) :
  resolved_css pyg css (with_standalone b self) = resolved_css pyg css self.
Proof. reflexivity. Qed.

Lemma render_document_standalone (inh : Inherited) (pyg : Pygments)
    (css : string) (self : HTMLRenderer) (tok : token) :
  render_document inh pyg css (with_standalone true self) tok =
  (body <- render_document inh pyg css (with_standalone false self) tok ;;
   Ok (minimal_html_page body (resolved_css pyg css self)
         default_title default_lang)).
Proof.
  unfold render_document. cbn [as_standalone add_mathjax with_standalone negb].
  rewrite resolved_css_standalone.
  destruct (super_render_document inh tok) as [body|e]; reflexivity.
Qed.

(** C3 (as a universal statement, refuted).  A standalone render need not
    hold one style block: a custom style sheet that closes the style
    element and opens another gives a page with two of them, each opened
    and closed. *)
Lemma C3_one_style_block_counterexample :
  exists out,
    as_standalone Sample.split_css_renderer = true /\
    render_document Sample.mistletoe Sample.two_lexers Sample.css
      Sample.split_css_renderer (Sample.fence "" "" "text") = Ok out /\
    is_in ("<style>" ++ nl ++ "p { margin: 0 }</style>"
           ++ "<style>em { color: red }" ++ nl ++ "</style>") out = true /\
    occurrences "<style" (lower out) = 2 /\
    occurrences "</style" (lower out) = 2.
Proof.
  eexists. split; [reflexivity|]. split; [reflexivity|].
  split; [|split]; vm_compute; reflexivity.
Qed.

(** C3 (amended).  With [as_standalone] set, the render is the page
    template of [minimal_html_page], title [Standalone HTML] and language
    [en], around the render of the same tree by the same renderer with
    [as_standalone] unset (the MathJax script included, when asked for),
    and fails where that render fails.  The style sheet is [myst_css] when
    given, else the packaged one, followed when [use_pygments] is set by
    [pygments_css] when given, else by the style rules pygments writes.
    Style sheet and body are put in as they are.  Read without regard to
    letter case, the page holds each of the tag openers [<style] and
    [<body] and of the closers [</style] and [</body] once more than the
    style sheet and the body together do: one style block and one body
    exactly when the two hold no such tag. *)
Theorem C3_standalone_page :
  forall (inh : Inherited) (pyg : Pygments) (css : string)
         (self : HTMLRenderer) (tok : token),
    let sheet0 := match myst_css self with Some c => c | None => css end in
    let sheet :=
      if use_pygments self then
        sheet0 ++ match pygments_css self with
                  | Some c => c
                  | None => get_style_defs pyg ".highlight"
                  end
      else sheet0 in
    let page body := minimal_html_page body sheet "Standalone HTML" "en" in
    render_document inh pyg css (with_standalone true self) tok =
      (body <- render_document inh pyg css (with_standalone false self) tok ;;
       Ok (page body)) /\
    (forall body,
        page body =
        page_head ++ nl ++ sheet ++ nl ++ page_mid ++ nl ++ body ++ nl
        ++ page_tail) /\
    (forall body tag,
        In tag ["<style"; "</style"; "<body"; "</body"] ->
        occurrences tag (lower (page body))
          = 1 + occurrences tag (lower sheet) + occurrences tag (lower body) /\
        (occurrences tag (lower (page body)) = 1 <->
         occurrences tag (lower sheet) = 0 /\
         occurrences tag (lower body) = 0)).
Proof.
  intros inh pyg css self tok sheet0 sheet page.
  split; [exact (render_document_standalone inh pyg css self tok)|].
  split; [intros body; reflexivity|].
  intros body tag Htag.
  assert (E : occurrences tag (lower (page body))
              = 1 + occurrences tag (lower sheet)
                + occurrences tag (lower body)).
  { unfold page. change "Standalone HTML" with default_title.
    change "en" with default_lang.
    cbn [In] in Htag.
    destruct Htag as [<-|[<-|[<-|[<-|[]]]]];
      rewrite occurrences_lower_page by reflexivity;
      [ change (occurrences "<style" (lower page_head)) with 1;
        change (occurrences "<style" (lower page_mid)) with 0;
        change (occurrences "<style" (lower page_tail)) with 0
      | change (occurrences "</style" (lower page_head)) with 0;
        change (occurrences "</style" (lower page_mid)) with 1;
        change (occurrences "</style" (lower page_tail)) with 0
      | change (occurrences "<body" (lower page_head)) with 0;
        change (occurrences "<body" (lower page_mid)) with 1;
        change (occurrences "<body" (lower page_tail)) with 0
      | change (occurrences "</body" (lower page_head)) with 0;
        change (occurrences "</body" (lower page_mid)) with 0;
        change (occurrences "</body" (lower page_tail)) with 1 ];
      lia. }
  split; [exact E|]. rewrite E. lia.
Qed.

Lemma C3_standalone_page_witness :
  render_document Sample.mistletoe Sample.two_lexers Sample.css
    (with_standalone true Sample.pygments_renderer) (Sample.fence "" "" "text")
  = Ok (minimal_html_page ("<p>text</p>" ++ nl)
          (Sample.css ++ ".highlight { background: #f8f8f8; }")
          "Standalone HTML" "en") /\
  occurrences "<style"
    (lower (minimal_html_page ("<p>text</p>" ++ nl)
              (Sample.css ++ ".highlight { background: #f8f8f8; }")
              "Standalone HTML" "en")) = 1 /\
  occurrences "</body"
    (lower (minimal_html_page ("<p>text</p>" ++ nl)
              (Sample.css ++ ".highlight { background: #f8f8f8; }")
              "Standalone HTML" "en")) = 1.
Proof.
  destruct (C3_standalone_page Sample.mistletoe Sample.two_lexers Sample.css
              Sample.pygments_renderer (Sample.fence "" "" "text"))
    as (H1 & _ & H3).
  split; [exact H1|]. split.
  - exact (proj2 (proj2 (H3 ("<p>text</p>" ++ nl) "<style"
                           (or_introl eq_refl)))
             (conj eq_refl eq_refl)).
  - exact (proj2 (proj2 (H3 ("<p>text</p>" ++ nl) "</body"
                           (or_intror (or_intror (or_intror
                              (or_introl eq_refl))))))
             (conj eq_refl eq_refl)).
Defined.

(** ** The sample escaping function *)

Module SampleFacts.
Import Sample.

Lemma reference_at_other (c : ascii) (s : string) :
  Ascii.eqb c "&" = false ->
  reference_at references (String c s) = None.
Proof.
  intros H. rewrite Ascii.eqb_sym in H.
  unfold references. cbn [reference_at startswith]. now rewrite H.
Qed.

Lemma unescape_plain (c : ascii) (s : string) :
  Ascii.eqb c "&" = false ->
  unescape_from 0 (String c s) = String c (unescape_from 0 s).
Proof.
  intros H. cbn [unescape_from]. now rewrite reference_at_other.
Qed.

(** [unescape] undoes [escape]. *)
Lemma unescape_escape (x : string) : unescape (escape x) = x.
Proof.
  unfold unescape.
  induction x as [|c x IH]; [reflexivity|].
  cbn [escape]. unfold entity.
  destruct (Ascii.eqb_spec c "&") as [->|Hamp]; [cbn; now rewrite IH|].
  destruct (Ascii.eqb_spec c "<") as [->|Hlt]; [cbn; now rewrite IH|].
  destruct (Ascii.eqb_spec c ">") as [->|Hgt]; [cbn; now rewrite IH|].
  destruct (Ascii.eqb_spec c "034") as [->|Hdq]; [cbn; now rewrite IH|].
  destruct (Ascii.eqb_spec c "'") as [->|Hap]; [cbn; now rewrite IH|].
  change (String c EmptyString ++ escape x) with (String c (escape x)).
  rewrite unescape_plain by now apply Ascii.eqb_neq.
  now rewrite IH.
Qed.

(** Escaping what is escaped already changes nothing. *)
Lemma sample_escape_html_idempotent (s : string) :
  sample_escape_html (sample_escape_html s) = sample_escape_html s.
Proof.
  unfold sample_escape_html. now rewrite unescape_escape.
Qed.

Lemma startswith_dollars (s : string) :
  startswith s "$$" = true -> exists r, s = String "$" (String "$" r).
Proof.
  destruct s as [|a [|b r]]; cbn [startswith]; try discriminate.
  - now rewrite andb_false_r.
  - intros H. apply andb_prop in H as [Ha H].
    apply andb_prop in H as [Hb _].
    apply Ascii.eqb_eq in Ha, Hb. subst a b. now exists r.
Qed.

Lemma sample_escape_html_dollars (s : string) :
  startswith s "$$" = true ->
  startswith (sample_escape_html s) "$$" = true.
Proof.
  intros H. destruct (startswith_dollars s H) as [r ->].
  unfold sample_escape_html, unescape.
  rewrite !unescape_plain by reflexivity.
  reflexivity.
Qed.

Lemma html_special_false (c : ascii) :
  html_special c = false ->
  Ascii.eqb c "&" = false /\ entity c = String c EmptyString.
Proof.
  unfold html_special, entity. intros H.
  apply orb_false_elim in H as [H H5]. apply orb_false_elim in H as [H H4].
  apply orb_false_elim in H as [H H3]. apply orb_false_elim in H as [H1 H2].
  now rewrite H1, H2, H3, H4, H5.
Qed.

(** Text with none of the five characters comes out as it went in. *)
Lemma sample_escape_html_plain (s : string) :
  plain_text s = true -> sample_escape_html s = s.
Proof.
  unfold sample_escape_html, unescape.
  induction s as [|c s IH]; [reflexivity|].
  cbn [plain_text]. intros H. apply andb_prop in H as [Hc Hs].
  apply negb_true_iff in Hc.
  destruct (html_special_false c Hc) as [Hamp Hent].
  rewrite (unescape_plain c s Hamp). cbn [escape].
  rewrite Hent, (IH Hs). reflexivity.
Qed.

End SampleFacts.

(** ** Math *)

Lemma render_math_wrapped (inh : Inherited) (tok : token) :
  startswith (content tok) "$$" = true ->
  render_math inh tok = Ok (render_raw_text inh tok).
Proof. intros H. unfold render_math. now rewrite H. Qed.

Lemma render_math_bare (inh : Inherited) (tok : token) :
  startswith (content tok) "$$" = false ->
  render_math inh tok = Ok ("$" ++ render_raw_text inh tok ++ "$").
Proof. intros H. unfold render_math. now rewrite H. Qed.

(** C4 (as stated, refuted).  A math token whose content starts with two
    dollar signs is not rendered verbatim: its text goes through the
    inherited escaping, and [$$a<b$$] comes out as [$$a&lt;b$$]. *)
Lemma C4_math_verbatim_counterexample :
  startswith (content (Sample.text "$$a<b$$")) "$$" = true /\
  render_math Sample.mistletoe (Sample.text "$$a<b$$") = Ok "$$a&lt;b$$" /\
  render_math Sample.mistletoe (Sample.text "$$a<b$$")
  <> Ok (content (Sample.text "$$a<b$$")).
Proof.
  split; [reflexivity|]. split; [reflexivity|]. discriminate.
Qed.

(** C4 (amended).  A math token whose content starts with two dollar
    signs renders as the inherited rendering of its raw text, nothing
    added; any other math token renders as that rendering between one
    pair of dollar signs.  Let the inherited rendering leave alone every
    text that holds none of the characters the escaping replaces.  Then
    a content with none of them is rendered verbatim when it starts with
    two dollar signs and between one pair of dollar signs otherwise, and
    the content [a=1] renders as [$a=1$]. *)
Theorem C4_math_delimiters :
  forall (inh : Inherited),
    (forall t, plain_text (content t) = true ->
               render_raw_text inh t = content t) ->
    forall (tok : token),
      render_math inh tok =
        Ok (if startswith (content tok) "$$"
            then render_raw_text inh tok
            else "$" ++ render_raw_text inh tok ++ "$") /\
      (plain_text (content tok) = true ->
       render_math inh tok =
         Ok (if startswith (content tok) "$$"
             then content tok
             else "$" ++ content tok ++ "$")) /\
      (content tok = "a=1" -> render_math inh tok = Ok "$a=1$").
Proof.
  intros inh Hplain tok.
  assert (E : render_math inh tok =
              Ok (if startswith (content tok) "$$"
                  then render_raw_text inh tok
                  else "$" ++ render_raw_text inh tok ++ "$")).
  { unfold render_math. now destruct (startswith (content tok) "$$"). }
  split; [exact E|]. split.
  - intros Hp. rewrite E, (Hplain tok Hp). reflexivity.
  - intros Hc. rewrite E, (Hplain tok) by now rewrite Hc.
    now rewrite Hc.
Qed.

Lemma C4_math_delimiters_witness :
  render_math Sample.mistletoe (Sample.text "a=1") = Ok "$a=1$" /\
  render_math Sample.mistletoe (Sample.text "$$a=1$$") = Ok "$$a=1$$" /\
  render_math Sample.mistletoe (Sample.text "a<b") = Ok "$a&lt;b$".
Proof.
  pose proof (C4_math_delimiters Sample.mistletoe
                (fun t => SampleFacts.sample_escape_html_plain (content t)))
    as H.
  split; [|split].
  - exact (proj2 (proj2 (H (Sample.text "a=1"))) eq_refl).
  - exact (proj1 (proj2 (H (Sample.text "$$a=1$$"))) eq_refl).
  - exact (proj1 (H (Sample.text "a<b"))).
Defined.

(** C5.  Let the inherited rendering of raw text leave alone what it has
    produced, and keep two leading dollar signs.  Then for a math token
    whose content starts with two dollar signs the rule returns a string
    that it returns again for every math token with that string as
    content. *)
Theorem C5_math_fixed_point :
  forall (inh : Inherited),
    (forall t t', content t' = render_raw_text inh t ->
                  render_raw_text inh t' = render_raw_text inh t) ->
    (forall t, startswith (content t) "$$" = true ->
               startswith (render_raw_text inh t) "$$" = true) ->
    forall tok,
      startswith (content tok) "$$" = true ->
      exists out,
        render_math inh tok = Ok out /\
        forall tok', content tok' = out -> render_math inh tok' = Ok out.
Proof.
  intros inh Hstable Hkeeps tok Hs.
  exists (render_raw_text inh tok). split.
  - now apply render_math_wrapped.
  - intros tok' Hc. rewrite render_math_wrapped.
    + now rewrite (Hstable tok tok' Hc).
    + rewrite Hc. now apply Hkeeps.
Qed.

Lemma C5_math_fixed_point_witness :
  exists out,
    render_math Sample.mistletoe (Sample.text "$$a<b$$") = Ok out /\
    render_math Sample.mistletoe (Sample.text out) = Ok out.
Proof.
  destruct (C5_math_fixed_point Sample.mistletoe
              (fun t t' H =>
                 eq_trans (f_equal Sample.sample_escape_html H)
                   (SampleFacts.sample_escape_html_idempotent (content t)))
              (fun t H => SampleFacts.sample_escape_html_dollars (content t) H)
              (Sample.text "$$a<b$$") eq_refl) as [out [H1 H2]].
  exists out. split; [exact H1|]. exact (H2 (Sample.text out) eq_refl).
Defined.

(** ** Highlighting and its fallback *)

Lemma render_block_code_children (inh : Inherited) (pyg : Pygments)
    (self : HTMLRenderer) (tok c : token) (others : list token) :
  truthy (language tok) = true ->
  use_pygments self = true ->
  children tok = c :: others ->
  render_block_code inh pyg self tok =
  (highlighted <- pygments_highlight pyg (content c) (language tok) ;;
   match highlighted with
   | None => super_render_block_code inh tok
   | Some h => Ok (highlight_div (language tok) h)
   end).
Proof.
  intros Hl Hp Hc. unfold render_block_code. now rewrite Hl, Hp, Hc.
Qed.





(** ** Front matter *)

(** C7.  With display off the front-matter rule returns the empty string.
    With display on and highlighting off it returns the escaped content
    between [<pre><code class="language-yaml">] and [</code></pre>], in
    the [myst-front-matter] [div]: the output does not open with the
    [div] of the highlighted form, and the highlighter plays no part. *)
Theorem C7_front_matter_plain :
  forall (inh : Inherited) (pyg : Pygments) (self : HTMLRenderer)
         (tok : token),
    (show_front_matter self = false ->
     render_front_matter inh pyg self tok = Ok EmptyString) /\
    (show_front_matter self = true ->
     use_pygments self = false ->
     let block :=
       "<pre><code class=" ++ q "language-yaml" ++ ">"
       ++ escape_html inh (content tok) ++ "</code></pre>" in
     let out := "<div class=" ++ q "myst-front-matter" ++ ">" ++ block
                ++ "</div>" in
     render_front_matter inh pyg self tok = Ok out /\
     is_in block out = true /\
     startswith out ("<div class=" ++ dq ++ "highlight") = false /\
     forall pyg', render_front_matter inh pyg' self tok = Ok out).
Proof.
  intros inh pyg self tok. split.
  - intros Hs. unfold render_front_matter. now rewrite Hs.
  - intros Hs Hp block out.
    assert (E : forall pyg', render_front_matter inh pyg' self tok = Ok out).
    { intros pyg'. unfold render_front_matter. rewrite Hs, Hp.
      cbn [negb]. unfold front_matter_plain, out, block.
      now rewrite !append_assoc. }
    split; [exact (E pyg)|]. split; [|split; [reflexivity|exact E]].
    unfold out. do 3 apply is_in_skip. apply is_in_here.
Qed.

Lemma C7_front_matter_plain_witness :
  render_front_matter Sample.mistletoe Sample.two_lexers
    (with_standalone true Sample.default_renderer) (Sample.text "a: <1>")
  = Ok ("<div class=" ++ q "myst-front-matter" ++ ">"
        ++ ("<pre><code class=" ++ q "language-yaml" ++ ">"
            ++ "a: &lt;1&gt;" ++ "</code></pre>") ++ "</div>").
Proof.
  exact (proj1 (proj2 (C7_front_matter_plain Sample.mistletoe Sample.two_lexers
                         (with_standalone true Sample.default_renderer)
                         (Sample.text "a: <1>")) eq_refl eq_refl)).
Defined.

(** ** The first child *)

Lemma render_directive_children (tok c : token) (others : list token) :
  children tok = c :: others ->
  render_directive tok =
  Ok (directive_shell (language tok) (arguments tok) (content c)).
Proof. intros H. unfold render_directive. now rewrite H. Qed.

(** C9.  The directive rule and the highlighting branch of the block-code
    rule (a language is given and [use_pygments] is set) read the content
    of the first child.  With no child each raises [IndexError], whatever
    the inherited rules and the highlighter are, so before any of them is
    called.  With a first child the directive rule returns its shell and
    the block-code rule returns what the highlighter's answer for that
    child's content decides; the other children change neither the
    directive shell nor the highlighted block. *)
Theorem C9_first_child_only :
  forall (inh : Inherited) (pyg : Pygments) (self : HTMLRenderer)
         (tok : token),
    (children tok = [] <-> render_directive tok = Raise IndexError) /\
    (children tok <> [] <-> exists out, render_directive tok = Ok out) /\
    (forall c others,
        children tok = c :: others ->
        render_directive tok =
          Ok (directive_shell (language tok) (arguments tok) (content c)) /\
        render_directive tok = render_directive (with_children [c] tok)) /\
    (truthy (language tok) = true ->
     use_pygments self = true ->
     (children tok = [] ->
      forall inh' pyg',
        render_block_code inh' pyg' self tok = Raise IndexError) /\
     (forall c others,
         children tok = c :: others ->
         render_block_code inh pyg self tok =
           (highlighted <- pygments_highlight pyg (content c) (language tok) ;;
            match highlighted with
            | None => super_render_block_code inh tok
            | Some h => Ok (highlight_div (language tok) h)
            end) /\
         (forall h,
             pygments_highlight pyg (content c) (language tok) = Ok (Some h) ->
             render_block_code inh pyg self tok
               = Ok (highlight_div (language tok) h) /\
             render_block_code inh pyg self tok
               = render_block_code inh pyg self (with_children [c] tok)))).
Proof.
  intros inh pyg self tok.
  split; [|split; [|split]].
  - unfold render_directive.
    destruct (children tok) as [|c others]; cbn [item0 bind];
      split; intros H; try reflexivity; discriminate H.
  - unfold render_directive.
    destruct (children tok) as [|c others]; cbn [item0 bind]; split.
    + intros H. now elim H.
    + intros [out H]. discriminate H.
    + intros _. eexists. reflexivity.
    + intros _. discriminate.
  - intros c others H. split.
    + exact (render_directive_children tok c others H).
    + rewrite (render_directive_children tok c others H).
      symmetry. exact (render_directive_children (with_children [c] tok) c []
                         eq_refl).
  - intros Hl Hp. split.
    + intros Hc inh' pyg'. unfold render_block_code.
      now rewrite Hl, Hp, Hc.
    + intros c others Hc.
      pose proof (render_block_code_children inh pyg self tok c others
                    Hl Hp Hc) as E.
      split; [exact E|]. intros h Hh. split.
      * rewrite E, Hh. reflexivity.
      * rewrite E, Hh.
        rewrite (render_block_code_children inh pyg self
                   (with_children [c] tok) c [] Hl Hp eq_refl).
        cbn [with_children language]. now rewrite Hh.
Qed.

Lemma C9_first_child_only_witness :
  render_directive (Sample.childless "{note}") = Raise IndexError /\
  render_block_code Sample.mistletoe Sample.two_lexers Sample.pygments_renderer
    (Sample.childless "python") = Raise IndexError /\
  render_block_code Sample.mistletoe Sample.two_lexers Sample.pygments_renderer
    (with_children [Sample.text "x = 1"; Sample.text "ignored"]
       (Sample.childless "python"))
  = render_block_code Sample.mistletoe Sample.two_lexers
      Sample.pygments_renderer
      (with_children [Sample.text "x = 1"] (Sample.childless "python")).
Proof.
  split; [|split].
  - destruct (C9_first_child_only Sample.mistletoe Sample.two_lexers
                Sample.pygments_renderer (Sample.childless "{note}"))
      as (H & _).
    exact (proj1 H eq_refl).
  - destruct (C9_first_child_only Sample.mistletoe Sample.two_lexers
                Sample.pygments_renderer (Sample.childless "python"))
      as (_ & _ & _ & H).
    destruct (H eq_refl eq_refl) as (H0 & _).
    exact (H0 eq_refl Sample.mistletoe Sample.two_lexers).
  - destruct (C9_first_child_only Sample.mistletoe Sample.two_lexers
                Sample.pygments_renderer
                (with_children [Sample.text "x = 1"; Sample.text "ignored"]
                   (Sample.childless "python")))
      as (_ & _ & _ & H).
    destruct (H eq_refl eq_refl) as (_ & H1).
    destruct (H1 (Sample.text "x = 1") [Sample.text "ignored"] eq_refl)
      as (_ & H2).
    exact (proj2 (H2 _ eq_refl)).
Defined.

(** ** Escaping *)





(** * Further properties *)

(** ** What [pygments_highlight] returns *)

Lemma bind_ok {A B : Type} (m : result A) (k : A -> result B) (b : B) :
  bind m k = Ok b <-> exists a, m = Ok a /\ k a = Ok b.
Proof.
  destruct m as [a|e]; cbn [bind]; split.
  - intros H. now exists a.
  - intros (a' & E & H). now injection E as <-.
  - discriminate.
  - intros (a' & E & _). discriminate E.
Qed.

Lemma bind_raise {A B : Type} (m : result A) (k : A -> result B) (e : exn) :
  bind m k = Raise e <->
  m = Raise e \/ exists a, m = Ok a /\ k a = Raise e.
Proof.
  destruct m as [a|e0]; cbn [bind]; split.
  - intros H. right. now exists a.
  - intros [E|(a' & E & H)]; [discriminate E|]. now injection E as <-.
  - intros H. left. now injection H as <-.
  - intros [E|(a' & E & _)]; [|discriminate E]. now injection E as <-.
Qed.

(** The [except ClassNotFound] clause, on the outcome of the [try] body. *)
Lemma except_class_not_found (m : result string) :
  let r := match m with
           | Ok html => Ok (Some html)
           | Raise ClassNotFound => Ok None
           | Raise e => Raise e
           end in
  r <> Raise ClassNotFound /\
  (r = Ok None <-> m = Raise ClassNotFound) /\
  (forall html, r = Ok (Some html) <-> m = Ok html) /\
  (forall e, r = Raise e <-> e <> ClassNotFound /\ m = Raise e).
Proof.
  destruct m as [h|[| | |w]]; cbn; repeat split; intros;
    try congruence; intuition congruence.
Qed.

(** X1.  [pygments_highlight] never raises [ClassNotFound].  It returns
    [None] exactly when the lexer lookup, or the highlighting itself,
    raises [ClassNotFound]; it returns a text exactly when both succeed;
    and any other exception of the two comes out as it is. *)
Theorem X1_pygments_highlight_cases :
  forall (pyg : Pygments) (code language : string),
    pygments_highlight pyg code language <> Raise ClassNotFound /\
    (pygments_highlight pyg code language = Ok None <->
     get_lexer_by_name pyg language = Raise ClassNotFound \/
     exists lx, get_lexer_by_name pyg language = Ok lx /\
                highlight pyg code lx = Raise ClassNotFound) /\
    (forall html,
        pygments_highlight pyg code language = Ok (Some html) <->
        exists lx, get_lexer_by_name pyg language = Ok lx /\
                   highlight pyg code lx = Ok html) /\
    (forall e,
        pygments_highlight pyg code language = Raise e <->
        e <> ClassNotFound /\
        (get_lexer_by_name pyg language = Raise e \/
         exists lx, get_lexer_by_name pyg language = Ok lx /\
                    highlight pyg code lx = Raise e)).
Proof.
  intros pyg code language. unfold pygments_highlight.
  destruct (except_class_not_found
              (lx <- get_lexer_by_name pyg language ;; highlight pyg code lx))
    as (H1 & H2 & H3 & H4).
  split; [exact H1|]. split; [|split].
  - rewrite H2. apply bind_raise.
  - intros html. rewrite H3. apply bind_ok.
  - intros e. rewrite H4. now rewrite bind_raise.
Qed.

(** ** Errors of the highlighting rules *)

Lemma pygments_highlight_error (pyg : Pygments) (code language : string)
    (e : exn) :
  e <> ClassNotFound ->
  get_lexer_by_name pyg language = Raise e \/
  (exists lx, get_lexer_by_name pyg language = Ok lx /\
              highlight pyg code lx = Raise e) ->
  pygments_highlight pyg code language = Raise e.
Proof.
  intros Hne He. unfold pygments_highlight.
  apply (proj2 (proj2 (proj2 (proj2
           (except_class_not_found
              (lx <- get_lexer_by_name pyg language ;;
               highlight pyg code lx)))) e)).
  split; [exact Hne|]. apply bind_raise. exact He.
Qed.

Lemma pygments_highlight_none (pyg : Pygments) (code language : string) :
  get_lexer_by_name pyg language = Raise ClassNotFound \/
  (exists lx, get_lexer_by_name pyg language = Ok lx /\
              highlight pyg code lx = Raise ClassNotFound) ->
  pygments_highlight pyg code language = Ok None.
Proof.
  intros He. unfold pygments_highlight.
  apply (proj2 (proj1 (proj2
           (except_class_not_found
              (lx <- get_lexer_by_name pyg language ;;
               highlight pyg code lx))))).
  apply bind_raise. exact He.
Qed.

(** X2.  With display and highlighting on, the front-matter rule calls no
    inherited method, so its result is the same for every renderer base.
    It raises [AttributeError] when [ClassNotFound] is raised for [yaml],
    by the lexer lookup or by the highlighting; any other exception of
    either comes out of the rule as it is; and when both succeed the
    result is the highlighted text, right-stripped, in its [div], which
    is the only way for the rule to return. *)
Theorem X2_front_matter_highlight_errors :
  forall (inh : Inherited) (pyg : Pygments) (self : HTMLRenderer)
         (tok : token),
    show_front_matter self = true ->
    use_pygments self = true ->
    (forall inh',
        render_front_matter inh' pyg self tok
        = render_front_matter inh pyg self tok) /\
    (get_lexer_by_name pyg "yaml" = Raise ClassNotFound \/
     (exists lx, get_lexer_by_name pyg "yaml" = Ok lx /\
                 highlight pyg (content tok) lx = Raise ClassNotFound) ->
     render_front_matter inh pyg self tok = Raise AttributeError) /\
    (forall e,
        e <> ClassNotFound ->
        get_lexer_by_name pyg "yaml" = Raise e \/
        (exists lx, get_lexer_by_name pyg "yaml" = Ok lx /\
                    highlight pyg (content tok) lx = Raise e) ->
        render_front_matter inh pyg self tok = Raise e) /\
    (forall out,
        render_front_matter inh pyg self tok = Ok out <->
        exists lx h,
          get_lexer_by_name pyg "yaml" = Ok lx /\
          highlight pyg (content tok) lx = Ok h /\
          out = "<div class=" ++ q "highlight-yaml myst-front-matter" ++ ">"
                ++ nl ++ rstrip h ++ nl ++ "</div>").
Proof.
  intros inh pyg self tok Hs Hp.
  unfold render_front_matter. rewrite Hs, Hp. cbn [negb].
  split; [reflexivity|]. split; [|split].
  - intros Hn. now rewrite (pygments_highlight_none pyg _ _ Hn).
  - intros e Hne He.
    now rewrite (pygments_highlight_error pyg _ _ e Hne He).
  - intros out. split.
    + destruct (pygments_highlight pyg (content tok) "yaml") as [[h|]|e] eqn:Hh;
        cbn [bind]; intros E; try discriminate E.
      injection E as <-.
      unfold pygments_highlight in Hh.
      apply (proj1 (proj2 (proj2 (except_class_not_found _))) h) in Hh.
      apply bind_ok in Hh as (lx & Hl & Hh).
      exists lx, h. repeat split; assumption.
    + intros (lx & h & Hl & Hh & ->).
      assert (E : pygments_highlight pyg (content tok) "yaml" = Ok (Some h)).
      { unfold pygments_highlight. rewrite Hl. cbn [bind]. now rewrite Hh. }
      now rewrite E.
Qed.

Lemma X2_front_matter_highlight_errors_witness :
  render_front_matter Sample.lenient Sample.no_lexers Sample.pygments_renderer
    (Sample.text "a: 1") = Raise AttributeError /\
  render_front_matter Sample.mistletoe failing_lexers Sample.pygments_renderer
    (Sample.text "a: 1") = Raise (OtherError "OptionError") /\
  render_front_matter Sample.mistletoe failing_highlight
    Sample.pygments_renderer (Sample.text "a: 1")
  = Raise (OtherError "UnicodeDecodeError").
Proof.
  split; [|split].
  - destruct (X2_front_matter_highlight_errors Sample.lenient Sample.no_lexers
                Sample.pygments_renderer (Sample.text "a: 1")
                eq_refl eq_refl) as (_ & H & _).
    exact (H (or_introl eq_refl)).
  - destruct (X2_front_matter_highlight_errors Sample.mistletoe failing_lexers
                Sample.pygments_renderer (Sample.text "a: 1")
                eq_refl eq_refl) as (_ & _ & H & _).
    refine (H (OtherError "OptionError") _ (or_introl eq_refl)). discriminate.
  - destruct (X2_front_matter_highlight_errors Sample.mistletoe
                failing_highlight Sample.pygments_renderer
                (Sample.text "a: 1") eq_refl eq_refl) as (_ & _ & H & _).
    refine (H (OtherError "UnicodeDecodeError") _
              (or_intror (ex_intro _ "yaml" (conj eq_refl eq_refl)))).
    discriminate.
Defined.

(** X3.  Without a language, or with highlighting off, the block-code
    rule asks neither the highlighter nor for a child: it returns what
    the inherited rule returns, for every highlighter and for a token
    with no child as well.  With both, and a first child, an exception of
    the highlighter other than [ClassNotFound] comes out of the rule as
    it is, with no fallback to the inherited rule. *)
Theorem X3_block_code_plain_and_errors :
  forall (inh : Inherited) (pyg : Pygments) (self : HTMLRenderer)
         (tok : token),
    (language tok = EmptyString \/ use_pygments self = false ->
     forall pyg',
       render_block_code inh pyg' self tok = super_render_block_code inh tok)
    /\
    (forall c others e,
        language tok <> EmptyString ->
        use_pygments self = true ->
        children tok = c :: others ->
        e <> ClassNotFound ->
        (get_lexer_by_name pyg (language tok) = Raise e \/
         exists lx, get_lexer_by_name pyg (language tok) = Ok lx /\
                    highlight pyg (content c) lx = Raise e) ->
        forall inh', render_block_code inh' pyg self tok = Raise e).
Proof.
  intros inh pyg self tok. split.
  - intros [Hl|Hp] pyg'; unfold render_block_code.
    + now rewrite Hl.
    + rewrite Hp. now rewrite orb_true_r.
  - intros c others e Hl Hp Hc Hne He inh'.
    assert (Ht : truthy (language tok) = true)
      by (destruct (language tok); [now elim Hl|reflexivity]).
    rewrite (render_block_code_children inh' pyg self tok c others Ht Hp Hc).
    assert (E : pygments_highlight pyg (content c) (language tok) = Raise e).
    { assert (E0 : (lx <- get_lexer_by_name pyg (language tok) ;;
                    highlight pyg (content c) lx) = Raise e)
        by (apply bind_raise; exact He).
      unfold pygments_highlight. rewrite E0.
      destruct e; try reflexivity. now elim Hne. }
    now rewrite E.
Qed.

Lemma X3_block_code_plain_and_errors_witness :
  render_block_code Sample.mistletoe failing_lexers Sample.default_renderer
    (Sample.fence "python" "" "x < 1")
  = Ok ("<pre><code class=" ++ q "language-python" ++ ">x &lt; 1</code></pre>")
  /\
  render_block_code Sample.mistletoe failing_lexers Sample.pygments_renderer
    (Sample.fence "python" "" "x = 1") = Raise (OtherError "OptionError").
Proof.
  split.
  - destruct (X3_block_code_plain_and_errors Sample.mistletoe failing_lexers
                Sample.default_renderer (Sample.fence "python" "" "x < 1"))
      as (H & _).
    exact (H (or_intror eq_refl) failing_lexers).
  - destruct (X3_block_code_plain_and_errors Sample.mistletoe failing_lexers
                Sample.pygments_renderer (Sample.fence "python" "" "x = 1"))
      as (_ & H).
    refine (H (Sample.text "x = 1") [] (OtherError "OptionError")
              _ eq_refl eq_refl _ (or_introl eq_refl) Sample.mistletoe);
      discriminate.
Defined.

(** ** The role rule *)

(** X4.  The role rule raises [IndexError] exactly when the token has no
    child.  With a first child it returns the role shell, which holds the
    role name between braces, unescaped, and the inherited rendering of
    the first child's raw text between two ticks; the other children
    change nothing. *)
Theorem X4_render_role_first_child :
  forall (inh : Inherited) (tok : token),
    (children tok = [] <-> render_role inh tok = Raise IndexError) /\
    (forall c others,
        children tok = c :: others ->
        let out :=
          "<span class=" ++ q "myst-role" ++ ">" ++
          "<span class=" ++ q "myst-role-name" ++ ">"
          ++ ("{" ++ name tok ++ "}") ++ "</span>" ++
          "<span class=" ++ q "myst-role-content" ++ ">"
          ++ ("&#39;" ++ render_raw_text inh c ++ "&#39;") ++ "</span>" ++
          "</span>" in
        render_role inh tok = Ok out /\
        render_role inh (with_children [c] tok) = Ok out /\
        is_in ("{" ++ name tok ++ "}") out = true /\
        is_in ("&#39;" ++ render_raw_text inh c ++ "&#39;") out = true).
Proof.
  intros inh tok. split.
  - unfold render_role.
    destruct (children tok) as [|c others]; cbn [item0 bind];
      split; intros H; try reflexivity; discriminate H.
  - intros c others Hc out.
    assert (E : forall t, children t = c :: others \/ children t = [c] ->
                          name t = name tok -> render_role inh t = Ok out).
    { intros t Ht Hn. unfold render_role.
      destruct Ht as [-> | ->]; cbn [item0 bind]; rewrite Hn;
        unfold out, tick; now rewrite !append_assoc. }
    split; [apply E; [now left|reflexivity]|].
    split; [apply E; [now right|reflexivity]|].
    unfold out. split.
    + do 6 apply is_in_skip. apply is_in_here.
    + do 11 apply is_in_skip. apply is_in_here.
Qed.

Lemma X4_render_role_first_child_witness :
  render_role Sample.mistletoe sample_role
  = Ok ("<span class=" ++ q "myst-role" ++ ">" ++
        "<span class=" ++ q "myst-role-name" ++ ">"
        ++ ("{" ++ "ref" ++ "}") ++ "</span>" ++
        "<span class=" ++ q "myst-role-content" ++ ">"
        ++ ("&#39;" ++ "a&lt;b" ++ "&#39;") ++ "</span>" ++
        "</span>").
Proof.
  exact (proj1 (proj2 (X4_render_role_first_child Sample.mistletoe sample_role)
                  (Sample.text "a<b") [Sample.text "more"] eq_refl)).
Defined.

(** ** Math in double dollars *)

(** X5.  Where the inherited rendering leaves the content alone, inline
    math [$m$] and display math [$$m$$] both render as [$$m$$]: the rule
    brings the single-dollar form to the double-dollar form and leaves
    the double-dollar form as it is ([m] not empty and not starting with
    a dollar sign). *)
Theorem X5_math_double_dollars :
  forall (inh : Inherited) (tok : token) (c : ascii) (m : string),
    render_raw_text inh tok = content tok ->
    c <> "$"%char ->
    content tok = "$" ++ String c m ++ "$" \/
    content tok = "$$" ++ String c m ++ "$$" ->
    render_math inh tok = Ok ("$$" ++ String c m ++ "$$").
Proof.
  intros inh tok c m Hraw Hc [E|E].
  - rewrite render_math_bare.
    + rewrite Hraw, E. cbn [append]. do 3 f_equal.
      now rewrite append_assoc.
    + rewrite E. cbn [append startswith].
      destruct (Ascii.eqb_spec "$" c) as [<-|_]; [now elim Hc|].
      reflexivity.
  - rewrite render_math_wrapped.
    + now rewrite Hraw, E.
    + rewrite E. reflexivity.
Qed.

Lemma X5_math_double_dollars_witness :
  render_math Sample.mistletoe (Sample.text "$a=1$") = Ok "$$a=1$$" /\
  render_math Sample.mistletoe (Sample.text "$$a=1$$") = Ok "$$a=1$$".
Proof.
  split.
  - refine (X5_math_double_dollars Sample.mistletoe (Sample.text "$a=1$")
              "a" "=1" eq_refl _ (or_introl eq_refl)). discriminate.
  - refine (X5_math_double_dollars Sample.mistletoe (Sample.text "$$a=1$$")
              "a" "=1" eq_refl _ (or_intror eq_refl)). discriminate.
Defined.

(** ** Trailing whitespace of the highlighted text *)

Lemma rstrip_all_space (ws : string) :
  all_space ws = true -> rstrip ws = EmptyString.
Proof.
  induction ws as [|c ws IH]; [reflexivity|].
  cbn [all_space rstrip]. intros H. apply andb_prop in H as [Hc Hw].
  now rewrite (IH Hw), Hc.
Qed.

Lemma rstrip_append_space (h ws : string) :
  all_space ws = true -> rstrip (h ++ ws) = rstrip h.
Proof.
  intros H. induction h as [|c h IH].
  - exact (rstrip_all_space ws H).
  - cbn [append rstrip]. now rewrite IH.
Qed.

Lemma rstrip_split (h : string) :
  exists ws, all_space ws = true /\ h = rstrip h ++ ws.
Proof.
  induction h as [|c h (ws & Hw & E)].
  - now exists EmptyString.
  - cbn [rstrip]. destruct (rstrip h) as [|d r] eqn:R.
    + destruct (isspace c) eqn:Hc.
      * exists (String c ws). cbn [all_space append].
        rewrite Hc, Hw. split; [reflexivity|]. now rewrite E at 1.
      * exists ws. split; [exact Hw|]. cbn [append]. now rewrite E at 1.
    + exists ws. split; [exact Hw|]. cbn [append]. now rewrite E at 1.
Qed.

Lemma rstrip_idempotent (h : string) : rstrip (rstrip h) = rstrip h.
Proof.
  induction h as [|c h IH]; [reflexivity|].
  cbn [rstrip]. destruct (rstrip h) as [|d r] eqn:R.
  - destruct (isspace c) eqn:Hc; [reflexivity|].
    cbn [rstrip]. now rewrite Hc.
  - change (rstrip (String c (String d r)))
      with (match rstrip (String d r) with
            | EmptyString =>
                if isspace c then EmptyString else String c EmptyString
            | String d' r' => String c (String d' r')
            end).
    now rewrite IH.
Qed.

(** X6.  The highlighted text reaches the output right-stripped: what is
    kept has no whitespace left to strip, the text is what is kept
    followed by whitespace only, and a highlighter that adds whitespace
    at the end of its output changes the result of neither the
    front-matter rule nor the block-code rule. *)
Theorem X6_trailing_whitespace_dropped :
  forall (inh : Inherited) (pyg pyg' : Pygments) (self : HTMLRenderer)
         (tok : token) (h ws : string),
    all_space ws = true ->
    rstrip (rstrip h) = rstrip h /\
    (exists ws0, all_space ws0 = true /\ h = rstrip h ++ ws0) /\
    (pygments_highlight pyg (content tok) "yaml" = Ok (Some h) ->
     pygments_highlight pyg' (content tok) "yaml" = Ok (Some (h ++ ws)) ->
     render_front_matter inh pyg' self tok
     = render_front_matter inh pyg self tok) /\
    (forall c others,
        children tok = c :: others ->
        pygments_highlight pyg (content c) (language tok) = Ok (Some h) ->
        pygments_highlight pyg' (content c) (language tok)
        = Ok (Some (h ++ ws)) ->
        render_block_code inh pyg' self tok
        = render_block_code inh pyg self tok).
Proof.
  intros inh pyg pyg' self tok h ws Hws.
  split; [apply rstrip_idempotent|]. split; [apply rstrip_split|]. split.
  - intros H H'. unfold render_front_matter. rewrite H, H'. cbn [bind].
    unfold front_matter_highlighted. now rewrite rstrip_append_space.
  - intros c others Hc H H'. unfold render_block_code.
    destruct (negb (truthy (language tok)) || negb (use_pygments self));
      [reflexivity|].
    rewrite Hc. cbn [item0 bind]. rewrite H, H'. cbn [bind].
    unfold highlight_div. cbn [join]. now rewrite rstrip_append_space.
Qed.

Lemma X6_trailing_whitespace_dropped_witness :
  render_block_code Sample.mistletoe padded_lexers Sample.pygments_renderer
    (Sample.fence "python" "" "x = 1")
  = render_block_code Sample.mistletoe Sample.two_lexers
      Sample.pygments_renderer (Sample.fence "python" "" "x = 1").
Proof.
  destruct (X6_trailing_whitespace_dropped Sample.mistletoe Sample.two_lexers
              padded_lexers Sample.pygments_renderer
              (Sample.fence "python" "" "x = 1")
              ("<div class=" ++ q "highlight" ++ "><pre>x = 1</pre></div>"
               ++ nl)
              (nl ++ "  ") eq_refl) as (_ & _ & _ & H).
  exact (H (Sample.text "x = 1") [] eq_refl eq_refl eq_refl).
Defined.

(** ** The MathJax script *)

(** A pattern whose first character is its only occurrence of it does not
    run from [a] into a text that starts with that character. *)
Lemma occurrences_append_fresh (x c : ascii) (p' a b : string) :
  has_char c p' = false ->
  occurrences (String x p') (a ++ String c b)
  = occurrences (String x p') a + occurrences (String x p') (String c b).
Proof.
  intros Hc. remember (occurrences (String x p') (String c b)) as n eqn:En.
  induction a as [|y a IH]; [now rewrite En|].
  change (String y a ++ String c b) with (String y (a ++ String c b)).
  cbn [occurrences]. rewrite IH.
  cbn [startswith]. rewrite (startswith_stops p' c Hc). lia.
Qed.

Lemma render_document_fragment (inh : Inherited) (pyg : Pygments)
    (css : string) (self : HTMLRenderer) (tok : token) :
  render_document inh pyg css (with_mathjax false (with_standalone false self))
    tok
  = super_render_document inh tok.
Proof.
  unfold render_document. cbn [add_mathjax as_standalone with_mathjax
                                 with_standalone negb].
  now destruct (super_render_document inh tok).
Qed.

(** X8.  Setting [add_mathjax] changes a render in one way only: the
    script element is put right after the body.  The fragment is the
    fragment without MathJax followed by the element, so it holds one
    [<script] and one [</script>] more; the standalone page is the page
    around that longer body, the element inside [<body>]. *)
Theorem X8_mathjax_script_appended :
  forall (inh : Inherited) (pyg : Pygments) (css : string)
         (self : HTMLRenderer) (tok : token),
    let plain :=
      render_document inh pyg css
        (with_mathjax false (with_standalone false self)) tok in
    render_document inh pyg css
      (with_mathjax true (with_standalone false self)) tok
    = (b <- plain ;; Ok (b ++ mathjax_script)) /\
    render_document inh pyg css
      (with_mathjax true (with_standalone true self)) tok
    = (b <- plain ;;
       Ok (minimal_html_page (b ++ mathjax_script) (resolved_css pyg css self)
             "Standalone HTML" "en")) /\
    (forall b,
        occurrences "<script" (b ++ mathjax_script)
        = occurrences "<script" b + 1 /\
        occurrences "</script>" (b ++ mathjax_script)
        = occurrences "</script>" b + 1).
Proof.
  intros inh pyg css self tok plain. unfold plain.
  rewrite render_document_fragment.
  split; [|split].
  - unfold render_document.
    cbn [add_mathjax as_standalone with_mathjax with_standalone negb].
    reflexivity.
  - unfold render_document.
    cbn [add_mathjax as_standalone with_mathjax with_standalone negb].
    reflexivity.
  - intros b. split.
    + exact (occurrences_append_fresh "<" "<" "script" b _ eq_refl).
    + exact (occurrences_append_fresh "<" "<" "/script>" b _ eq_refl).
Qed.

Lemma X8_mathjax_script_appended_witness :
  render_document Sample.mistletoe Sample.two_lexers Sample.css
    (with_mathjax true (with_standalone false Sample.default_renderer))
    (Sample.fence "" "" "text")
  = Ok ("<p>text</p>" ++ nl ++ mathjax_script) /\
  occurrences "<script" ("<p>text</p>" ++ nl ++ mathjax_script) = 1.
Proof.
  destruct (X8_mathjax_script_appended Sample.mistletoe Sample.two_lexers
              Sample.css Sample.default_renderer (Sample.fence "" "" "text"))
    as (H1 & _ & H3).
  split; [exact H1|]. exact (proj1 (H3 ("<p>text</p>" ++ nl))).
Defined.

(** ** Style sheets that are not read *)

(** X9.  A fragment render reads no style sheet: [myst_css],
    [pygments_css], the packaged style sheet and the style rules of the
    highlighter do not change it.  In a standalone render the packaged
    style sheet is not read when [myst_css] is given, and the style rules
    of the highlighter are not asked for when [use_pygments] is unset or
    [pygments_css] is given; with [use_pygments] unset, [pygments_css] is
    not read either.  The lexers and the highlighting stay as they are
    throughout. *)
Theorem X9_style_sheets_not_read :
  forall (inh : Inherited) (pyg : Pygments) (css css' : string)
         (self : HTMLRenderer) (tok : token) (f : string -> string),
    (as_standalone self = false ->
     forall m g,
       render_document inh (with_style_defs f pyg) css' (with_css m g self) tok
       = render_document inh pyg css self tok) /\
    (myst_css self <> None ->
     render_document inh pyg css' self tok
     = render_document inh pyg css self tok) /\
    (use_pygments self = false \/ pygments_css self <> None ->
     render_document inh (with_style_defs f pyg) css self tok
     = render_document inh pyg css self tok) /\
    (use_pygments self = false ->
     forall g,
       render_document inh pyg css (with_css (myst_css self) g self) tok
       = render_document inh pyg css self tok).
Proof.
  intros inh pyg css css' self tok f. split; [|split; [|split]].
  - intros Hs m g. unfold render_document.
    cbn [add_mathjax as_standalone with_css]. rewrite Hs. reflexivity.
  - intros Hm. unfold render_document, resolved_css, get_syntax_css.
    destruct (myst_css self); [reflexivity|now elim Hm].
  - intros H. unfold render_document, resolved_css.
    destruct H as [H|H].
    + now rewrite H.
    + destruct (pygments_css self); [reflexivity|now elim H].
  - intros H g. unfold render_document, resolved_css.
    cbn [add_mathjax as_standalone use_pygments myst_css with_css].
    now rewrite H.
Qed.

Lemma X9_style_sheets_not_read_witness :
  render_document Sample.mistletoe
    (with_style_defs (fun _ => ".k { color: blue; }") Sample.two_lexers)
    "h1 { color: red; }"
    (with_css (Some "p { margin: 0; }") (Some ".k { color: green; }")
       (with_standalone false Sample.pygments_renderer))
    (Sample.fence "" "" "text")
  = render_document Sample.mistletoe Sample.two_lexers Sample.css
      (with_standalone false Sample.pygments_renderer)
      (Sample.fence "" "" "text").
Proof.
  destruct (X9_style_sheets_not_read Sample.mistletoe Sample.two_lexers
              Sample.css "h1 { color: red; }"
              (with_standalone false Sample.pygments_renderer)
              (Sample.fence "" "" "text")
              (fun _ => ".k { color: blue; }")) as (H & _).
  exact (H eq_refl (Some "p { margin: 0; }") (Some ".k { color: green; }")).
Defined.

(** ** Every outcome of the fence rule *)

Lemma pygments_highlight_not_class_not_found (pyg : Pygments)
    (code language : string) :
  pygments_highlight pyg code language <> Raise ClassNotFound.
Proof.
  unfold pygments_highlight.
  exact (proj1 (except_class_not_found
                  (lx <- get_lexer_by_name pyg language ;;
                   highlight pyg code lx))).
Qed.

(** X10.  The fence rule has five outcomes and no other.  With no child
    it raises [IndexError] (for a directive, and in the highlighting
    branch).  With a first child it returns the directive shell, or the
    highlighted block, or raises the highlighter's exception, which is
    never [ClassNotFound].  In every other case its result is the
    inherited block-code rule's, whatever that is. *)
Theorem X10_code_fence_outcomes :
  forall (inh : Inherited) (pyg : Pygments) (self : HTMLRenderer)
         (tok : token),
    let r := render_code_fence inh pyg self tok in
    (children tok = [] /\ r = Raise IndexError) \/
    (exists c others,
        children tok = c :: others /\
        startswith (language tok) "{" = true /\
        r = Ok (directive_shell (language tok) (arguments tok) (content c))) \/
    (exists c others h,
        children tok = c :: others /\
        use_pygments self = true /\
        pygments_highlight pyg (content c) (language tok) = Ok (Some h) /\
        r = Ok ("<div class=" ++ q ("highlight-" ++ language tok) ++ ">" ++ nl
                ++ rstrip h ++ nl ++ "</div>")) \/
    (exists c others e,
        children tok = c :: others /\
        use_pygments self = true /\
        e <> ClassNotFound /\
        pygments_highlight pyg (content c) (language tok) = Raise e /\
        r = Raise e) \/
    r = super_render_block_code inh tok.
Proof.
  intros inh pyg self tok r. unfold r, render_code_fence.
  destruct (truthy (language tok)) eqn:Ht; cbn [andb].
  - destruct (startswith (language tok) "{") eqn:Hb.
    + unfold render_directive.
      destruct (children tok) as [|c others]; cbn [item0 bind].
      * left. now split.
      * right. left. exists c, others. repeat split.
    + unfold render_block_code. rewrite Ht. cbn [negb orb].
      destruct (use_pygments self) eqn:Hp; cbn [negb];
        [|now do 4 right].
      destruct (children tok) as [|c others]; cbn [item0 bind];
        [left; now split|].
      destruct (pygments_highlight pyg (content c) (language tok))
        as [[h|]|e] eqn:Hh; cbn [bind].
      * right. right. left. exists c, others, h.
        split; [reflexivity|]. split; [reflexivity|]. split; [exact Hh|].
        unfold highlight_div. cbn [join]. now rewrite !append_assoc.
      * now do 4 right.
      * right. right. right. left. exists c, others, e.
        split; [reflexivity|]. split; [reflexivity|].
        split; [|split; [exact Hh|reflexivity]].
        intros ->. exact (pygments_highlight_not_class_not_found _ _ _ Hh).
  - unfold render_block_code. rewrite Ht. now do 4 right.
Qed.
